(** * ResourceChain (heat/engine/resources/openstack/heat/resource_chain.py)

    A shallow embedding of the [ResourceChain] resource plugin: the slot
    namer [_resource_names], the child specification builder
    [_build_resource_definition], the template synthesis [child_template],
    the attribute resolver [get_attribute] and the output projector
    [_nested_output_defns], followed by the properties established about
    them.

    Python values are rendered by the type [value]; exceptions by the
    error monad [result].  The collaborators living in other modules
    ([grouputils], [attributes.select_from_attribute], the set returned
    by [referenced_attrs]) are parameters of the definitions that call
    them. *)

From Stdlib Require Import Ascii String.
From stdpp Require Import base list strings gmap pretty.

(** ** Python values and exceptions *)

(** The Python objects the plugin handles: [None], text, lists, dicts
    keyed by text, and the intrinsic-function objects a template builds
    ([get_attr] applied to its argument list). *)
#[warnings="-register-all"]
Inductive value : Type :=
| VNone
| VStr (s : string)
| VList (l : list value)
| VDict (d : gmap string value)
| VFunction (fn_name : string) (args : list string).

(** The exceptions that can leave the plugin: the one it raises itself,
    and whatever a collaborator raised, carried unchanged. *)
Inductive exn : Type :=
| InvalidTemplateAttribute (resource key : string)
| IndexError
| External (what : string).

Inductive result (A : Type) : Type :=
| Ok (a : A)
| Raise (e : exn).
Arguments Ok {A} a.
Arguments Raise {A} e.

(** [result] is a monad; [x ← m; k] sequences two computations, the
    first exception raised being the outcome.  A list comprehension whose
    element expression may raise is [mapM]: the elements are evaluated
    left to right and the first exception aborts the comprehension. *)
#[global] Instance result_ret : MRet result := λ A a, Ok a.

#[global] Instance result_bind : MBind result := λ A B k m,
  match m with
  | Ok a => k a
  | Raise e => Raise e
  end.

#[global] Instance result_fmap : FMap result := λ A B f m,
  match m with
  | Ok a => Ok (f a)
  | Raise e => Raise e
  end.

(** ** String primitives of the Python source *)

Module Py.

(** [s.startswith(p)] *)
Fixpoint startswith (s p : string) {struct p} : bool :=
  match p, s with
  | EmptyString, _ => true
  | String c p', String d s' => if Ascii.eqb c d then startswith s' p' else false
  | String _ _, EmptyString => false
  end.

(** [s.partition(sep)] for a one-character separator, [None] when the
    separator does not occur. *)
Fixpoint partition (sep : Ascii.ascii) (s : string) : option (string * string) :=
  match s with
  | EmptyString => None
  | String c s' =>
      if Ascii.eqb c sep then Some (EmptyString, s')
      else match partition sep s' with
           | Some (before, after) => Some (String c before, after)
           | None => None
           end
  end.

(** [s.split(sep, maxsplit)] for a one-character separator: cut at the
    leftmost separators, at most [maxsplit] times; empty pieces are kept. *)
Fixpoint split (sep : Ascii.ascii) (maxsplit : nat) (s : string) : list string :=
  match maxsplit with
  | 0 => [s]
  | S m =>
      match partition sep s with
      | None => [s]
      | Some (before, after) => before :: split sep m after
      end
  end.

(** [sep.join(l)] *)
Fixpoint join (sep : string) (l : list string) : string :=
  match l with
  | [] => EmptyString
  | [x] => x
  | x :: l' => x +:+ sep +:+ join sep l'
  end.

(** [l[i]] for [i >= 0]: raises [IndexError] out of range. *)
Definition getitem {A} (l : list A) (i : nat) : result A :=
  match l !! i with
  | Some x => Ok x
  | None => Raise IndexError
  end.

(** [dict(pairs)]: later pairs override earlier ones with the same key. *)
Definition dict {V} (pairs : list (string * V)) : gmap string V :=
  foldl (λ m kv, <[kv.1 := kv.2]> m) ∅ pairs.

(** [six.text_type(i)] for a non-negative integer: its decimal numeral. *)
Definition text_type (i : nat) : string := pretty i.

(** [enumerate(l)] *)
Definition enumerate {A} (l : list A) : list (nat * A) := imap pair l.

(** Truth value of a list: [True] unless it is empty. *)
Definition truthy {A} (l : list A) : bool :=
  match l with
  | [] => false
  | _ :: _ => true
  end.

(** [x in l] *)
Definition contains (x : string) (l : list string) : bool :=
  bool_decide (x ∈ l).

End Py.

(** ** Objects built by the plugin *)

(** [rsrc_defn.ResourceDefinition(name, resource_type, properties,
    depends=depends_on)]: the four constructor arguments, as given. *)
Record ResourceDefinition : Type := {
  defn_name : string;
  resource_type : string;
  defn_properties : value;
  depends : option (list string)
}.

(** [output.OutputDefinition(name, value)] *)
Record OutputDefinition : Type := {
  output_name : string;
  output_value : value
}.

(** Modelled from the spec: the nested template object of
    [heat.scaling.template] and [heat.engine.template], which
    [resource_chain.py] only imports.  It is an ordered mapping from slot identifier to
    child specification plus the output definitions added to it, kept in
    the order they were added. *)
Record Template : Type := {
  tmpl_resources : list (string * ResourceDefinition);
  tmpl_outputs : list OutputDefinition
}.

(** Modelled from the spec: [tmpl.add_resource(defn, name)] on the ordered
    mapping.  A key already present keeps its position and takes the new
    definition; a new key is added at the end. *)
Fixpoint add_resource (name : string) (defn : ResourceDefinition)
    (rs : list (string * ResourceDefinition)) : list (string * ResourceDefinition) :=
  match rs with
  | [] => [(name, defn)]
  | (k, d) :: rs' =>
      if String.eqb k name then (k, defn) :: rs'
      else (k, d) :: add_resource name defn rs'
  end.

(** Modelled from the spec: [scl_template.make_template(name_def_tuples)],
    the template assembler.  It adds the definitions one by one, in the
    order of the list, to a template that has no output. *)
Definition make_template (name_def_tuples : list (string * ResourceDefinition)) : Template :=
  {| tmpl_resources := foldl (λ rs nd, add_resource nd.1 nd.2 rs) [] name_def_tuples;
     tmpl_outputs := [] |}.

(** Modelled from the spec: [nested_template.add_output(odefn)]. *)
Definition add_output (t : Template) (odefn : OutputDefinition) : Template :=
  {| tmpl_resources := tmpl_resources t;
     tmpl_outputs := tmpl_outputs t ++ [odefn] |}.

(** An element of [self.referenced_attrs()]: either the attribute name as
    text, or a tuple made of the attribute name followed by the path
    components. *)
Inductive attr : Type :=
| AttrStr (s : string)
| AttrTuple (key : string) (path : list string).

(** ** The plugin *)

Definition REFS : string := "refs".
Definition ATTR_ATTRIBUTES : string := "attributes".
Definition ATTRIBUTES : list string := [REFS; ATTR_ATTRIBUTES].

(** [self.properties], after schema validation: the declared type list,
    the concurrency switch and the shared property payload. *)
Record Properties : Type := {
  resources : list string;
  concurrent : bool;
  resource_properties : value
}.

(** [_resource_names(resource_types)] *)
Definition _resource_names (resource_types : list string) : list string :=
  (λ it : nat * string, Py.text_type it.1) <$> Py.enumerate resource_types.

Section ResourceChain.

(** The state of the nested stack, read by [grouputils] only. *)
Variable Stack : Type.

(** [self]: the resource name, its properties, its nested stack and the
    attributes of it that the owning template refers to, in the order in
    which the set [self.referenced_attrs()] is iterated. *)
Record ResourceChain : Type := {
  name : string;
  properties : Properties;
  nested : Stack;
  referenced_attrs : list attr
}.

(** [grouputils.get_nested_attrs(stack, key, use_indices, *path)] *)
Variable get_nested_attrs : Stack → string → bool → list string → result value.

(** [grouputils.get_rsrc_id(stack, key, use_indices, resource_name)] *)
Variable get_rsrc_id : Stack → string → bool → string → result value.

(** [grouputils.get_rsrc_attr(stack, key, use_indices, resource_name,
    *attr_path)] *)
Variable get_rsrc_attr : Stack → string → bool → string → list string → result value.

(** [attributes.select_from_attribute(attribute_value, path)] *)
Variable select_from_attribute : value → list string → result value.

(** [_build_resource_definition(resource_name, resource_type,
    depends_on=depends_on)] *)
Definition _build_resource_definition (self : ResourceChain)
    (resource_name resource_type : string)
    (depends_on : option (list string)) : ResourceDefinition :=
  let properties := resource_properties (properties self) in
  {| defn_name := resource_name;
     resource_type := resource_type;
     defn_properties := properties;
     depends := depends_on |}.

(** One iteration of the loop of [_nested_output_defns]: the output
    definitions it yields for the referenced attribute [a]. *)
Definition _nested_output_defns_body (resource_names : list string)
    (get_attr_fn : list string → value) (a : attr)
    : result (list OutputDefinition) :=
  let '(key, path, output_name) :=
    match a with
    | AttrStr s => (s, [], s)
    | AttrTuple k p => (k, p, Py.join ", " (k :: p))
    end in
  if Py.startswith key "resource." then
    let keycomponents := Py.split "." 2 key in
    res_name ← Py.getitem keycomponents 1;
    let attr_name := drop 2 keycomponents in
    if Py.truthy attr_name && Py.contains res_name resource_names then
      let value := get_attr_fn ([res_name] ++ attr_name ++ path) in
      mret [Build_OutputDefinition output_name value]
    else mret []
  else if String.eqb key ATTR_ATTRIBUTES && Py.truthy path then
    let value := VDict (Py.dict ((λ r, (r, get_attr_fn ([r] ++ path))) <$> resource_names)) in
    mret [Build_OutputDefinition output_name value]
  else if negb (Py.contains key ATTRIBUTES) then
    let value := VList ((λ r, get_attr_fn ([r; key] ++ path)) <$> resource_names) in
    mret [Build_OutputDefinition output_name value]
  else mret [].

(** [_nested_output_defns(resource_names, get_attr_fn)]: everything the
    generator yields, in order. *)
Definition _nested_output_defns (self : ResourceChain)
    (resource_names : list string) (get_attr_fn : list string → value)
    : result (list OutputDefinition) :=
  yielded ← mapM (_nested_output_defns_body resource_names get_attr_fn)
                 (referenced_attrs self);
  mret (concat yielded).

(** [child_template()] *)
Definition child_template (self : ResourceChain) : result Template :=
  let resource_types := resources (properties self) in
  let resource_names := _resource_names resource_types in
  name_def_tuples ← mapM (λ it : nat * string,
      let '(index, rt) := it in
      name ← Py.getitem resource_names index;
      depends_on ←
        (if (0 <? index) && negb (concurrent (properties self)) then
           prev ← Py.getitem resource_names (index - 1);
           mret (Some [prev])
         else mret None);
      let t := (name, _build_resource_definition self name rt depends_on) in
      mret t) (Py.enumerate resource_types);
  let nested_template := make_template name_def_tuples in
  let att_func := "get_attr" in
  let get_attr := VFunction att_func in
  let res_names := name_def_tuples.*1 in
  odefns ← _nested_output_defns self res_names get_attr;
  mret (foldl add_output nested_template odefns).

(** [get_attribute(key, *path)] *)
Definition get_attribute (self : ResourceChain) (key : string)
    (path : list string) : result value :=
  if Py.startswith key "resource." then
    get_nested_attrs (nested self) key false path
  else
    let resource_types := resources (properties self) in
    let names := _resource_names resource_types in
    if String.eqb key REFS then
      vals ← mapM (λ n, get_rsrc_id (nested self) key false n) names;
      select_from_attribute (VList vals) path
    else if String.eqb key ATTR_ATTRIBUTES then
      if negb (Py.truthy path) then
        Raise (InvalidTemplateAttribute (name self) key)
      else
        pairs ← mapM (λ n, v ← get_rsrc_attr (nested self) key false n path;
                            mret (n, v)) names;
        mret (VDict (Py.dict pairs))
    else
      let path := [key] ++ path in
      vals ← mapM (λ n, get_rsrc_attr (nested self) key false n path) names;
      mret (VList vals).

End ResourceChain.

Arguments name {Stack} _.
Arguments properties {Stack} _.
Arguments nested {Stack} _.
Arguments referenced_attrs {Stack} _.
Arguments Build_ResourceChain {Stack} _ _ _ _.
Arguments _build_resource_definition {Stack} _ _ _ _.
Arguments _nested_output_defns {Stack} _ _ _.
Arguments child_template {Stack} _.
Arguments get_attribute {Stack} _ _ _ _ _ _ _.

(** ** Auxiliary definitions for the statements *)

(** [occurs c s]: the character [c] occurs in [s]. *)
Fixpoint occurs (c : Ascii.ascii) (s : string) : bool :=
  match s with
  | EmptyString => false
  | String d s' => Ascii.eqb d c || occurs c s'
  end.

(** The three things one iteration of the projector reads off a
    referenced attribute: its key, its path, and the name given to the
    output. *)
Definition attr_key (a : attr) : string :=
  match a with AttrStr s => s | AttrTuple k _ => k end.

Definition attr_path (a : attr) : list string :=
  match a with AttrStr _ => [] | AttrTuple _ p => p end.

Definition attr_output_name (a : attr) : string :=
  match a with AttrStr s => s | AttrTuple k p => Py.join ", " (k :: p) end.

(** What one iteration yields, as a plain list. *)
Definition yields (resource_names : list string)
    (get_attr_fn : list string → value) (a : attr) : list OutputDefinition :=
  let key := attr_key a in
  let path := attr_path a in
  if Py.startswith key "resource." then
    match Py.split "." 2 key with
    | [_; res_name; attr_name] =>
        if Py.contains res_name resource_names then
          [Build_OutputDefinition (attr_output_name a)
             (get_attr_fn (res_name :: attr_name :: path))]
        else []
    | _ => []
    end
  else if String.eqb key ATTR_ATTRIBUTES && Py.truthy path then
    [Build_OutputDefinition (attr_output_name a)
       (VDict (Py.dict ((λ r, (r, get_attr_fn (r :: path))) <$> resource_names)))]
  else if negb (Py.contains key ATTRIBUTES) then
    [Build_OutputDefinition (attr_output_name a)
       (VList ((λ r, get_attr_fn (r :: key :: path)) <$> resource_names))]
  else [].

(** The dependency of the child at position [index]: its predecessor in
    a sequential chain, unless it is the first; none in a concurrent one. *)
Definition predecessor (concurrent : bool) (index : nat) : option (list string) :=
  if concurrent then None
  else match index with
       | 0 => None
       | S j => Some [Py.text_type j]
       end.

(** The named child specification at position [index], for type [rt]. *)
Definition child_spec {Stack} (self : ResourceChain Stack)
    (index : nat) (rt : string) : string * ResourceDefinition :=
  (Py.text_type index,
   {| defn_name := Py.text_type index;
      resource_type := rt;
      defn_properties := resource_properties (properties self);
      depends := predecessor (concurrent (properties self)) index |}).

(** An aggregate over no child at all: the empty sequence or the empty
    mapping. *)
Definition empty_aggregate (v : value) : Prop := v = VList [] ∨ v = VDict ∅.

(** The four resolution rules, and the order in which their conditions
    are tried: the first that holds decides. *)
Inductive resolution_rule : Type :=
| ResourcePathRule
| RefsRule
| AttributesRule
| GenericRule.

Definition rule_of (key : string) : resolution_rule :=
  if Py.startswith key "resource." then ResourcePathRule
  else if String.eqb key REFS then RefsRule
  else if String.eqb key ATTR_ATTRIBUTES then AttributesRule
  else GenericRule.

Section Rules.

Context {Stack : Type}.
Variable get_nested_attrs : Stack → string → bool → list string → result value.
Variable get_rsrc_id : Stack → string → bool → string → result value.
Variable get_rsrc_attr : Stack → string → bool → string → list string → result value.
Variable select_from_attribute : value → list string → result value.

(** What each rule returns for a key and a path. *)
Definition rule_result (r : resolution_rule) (self : ResourceChain Stack)
    (key : string) (path : list string) : result value :=
  let names := _resource_names (resources (properties self)) in
  match r with
  | ResourcePathRule => get_nested_attrs (nested self) key false path
  | RefsRule =>
      ids ← mapM (get_rsrc_id (nested self) key false) names;
      select_from_attribute (VList ids) path
  | AttributesRule =>
      match path with
      | [] => Raise (InvalidTemplateAttribute (name self) key)
      | _ :: _ =>
          pairs ← mapM (λ n, v ← get_rsrc_attr (nested self) key false n path;
                              mret (n, v)) names;
          mret (VDict (Py.dict pairs))
      end
  | GenericRule =>
      vals ← mapM (λ n, get_rsrc_attr (nested self) key false n (key :: path)) names;
      mret (VList vals)
  end.

End Rules.

(** ** Sample inputs *)

(** A chain of three children, two of them of the same type. *)
Definition sample_types : list string :=
  ["OS::Heat::RandomString"; "OS::Heat::TestResource"; "OS::Heat::RandomString"].

Definition sample_chain (concurrent : bool) (attrs : list attr) : ResourceChain unit :=
  {| name := "chain";
     properties := {| resources := sample_types;
                      concurrent := concurrent;
                      resource_properties := VDict {[ "length" := VStr "8" ]} |};
     nested := tt;
     referenced_attrs := attrs |}.

(** A chain that declares no type. *)
Definition empty_chain (attrs : list attr) : ResourceChain unit :=
  {| name := "chain";
     properties := {| resources := [];
                      concurrent := false;
                      resource_properties := VNone |};
     nested := tt;
     referenced_attrs := attrs |}.

(** A nested stack for the sample chain: the identity of a child and the
    value of an attribute of it are read off its slot identifier. *)
Definition sample_get_nested_attrs (st : unit) (key : string) (use_indices : bool)
    (path : list string) : result value :=
  Ok (VStr (Py.join "/" (key :: path))).

Definition sample_get_rsrc_id (st : unit) (key : string) (use_indices : bool)
    (resource_name : string) : result value :=
  Ok (VStr ("id-" +:+ resource_name)).

Definition sample_get_rsrc_attr (st : unit) (key : string) (use_indices : bool)
    (resource_name : string) (path : list string) : result value :=
  Ok (VStr (Py.join "/" (resource_name :: path))).

Definition sample_select_from_attribute (v : value) (path : list string) : result value :=
  match path with
  | [] => Ok v
  | _ :: _ => Ok VNone
  end.

(** ** Validation and the create and update handlers *)

(** How a call of [self.stack.env.get_class_to_instantiate(resource_type)]
    ends, as the [try] statement of [validate_nested_stack] tells the
    cases apart: it returns a class, it raises
    [exception.EntityNotFound], or it raises anything else. *)
Inductive class_lookup : Type :=
| ClassFound
| EntityNotFound
| LookupRaised (e : exn).

Section Handlers.

Context {Stack : Type}.

(** [self.stack.env.get_class_to_instantiate(resource_type)] *)
Variable get_class_to_instantiate : string → class_lookup.

(** [super(ResourceChain, self).validate_nested_stack()] *)
Variable super_validate_nested_stack : ResourceChain Stack → result unit.

(** [self.create_with_template(template)] and
    [self.update_with_template(template)] of [StackResource] *)
Variable create_with_template : Template → result value.
Variable update_with_template : Template → result value.

(** [validate_nested_stack()] *)
Definition validate_nested_stack (self : ResourceChain Stack) : result unit :=
  _ ← mapM (λ resource_type,
        match get_class_to_instantiate resource_type with
        | ClassFound => mret tt
        | EntityNotFound => mret tt
        | LookupRaised e => Raise e
        end) (resources (properties self));
  super_validate_nested_stack self.

(** [handle_create()] *)
Definition handle_create (self : ResourceChain Stack) : result value :=
  template ← child_template self;
  create_with_template template.

(** [handle_update(json_snippet, tmpl_diff, prop_diff)]: the properties
    read off [json_snippet] replace [self.properties], then the template
    is synthesized.  The resource after the assignment is returned beside
    the outcome. *)
Definition handle_update (self : ResourceChain Stack)
    (json_snippet_properties : Properties)
    : ResourceChain Stack * result value :=
  let self := {| name := name self;
                 properties := json_snippet_properties;
                 nested := nested self;
                 referenced_attrs := referenced_attrs self |} in
  (self, template ← child_template self; update_with_template template).

End Handlers.

(** ** Further auxiliary definitions *)

(** [get_attr_on names v]: [v] is a [get_attr] function object whose
    first argument is one of [names]. *)
Definition get_attr_on (names : list string) (v : value) : Prop :=
  ∃ r args, v = VFunction "get_attr" (r :: args) ∧ r ∈ names.

(** An output value that addresses children of [names] only: one lookup
    in a child, a sequence with one lookup per child, or a mapping from
    child names to a lookup in that child. *)
Definition addresses_children (names : list string) (v : value) : Prop :=
  get_attr_on names v ∨
  (∃ l, v = VList l ∧ length l = length names ∧ Forall (get_attr_on names) l) ∨
  (∃ d, v = VDict d ∧
        ∀ k x, d !! k = Some x →
               k ∈ names ∧ ∃ args, x = VFunction "get_attr" (k :: args)).

(** The number of children of a template that depend on another child. *)
Definition dependent_children (t : Template) : nat :=
  length (filter (λ nd, is_Some (depends nd.2)) (tmpl_resources t)).

(** A nested stack in which the child ["1"] does not exist yet. *)
Definition sample_get_rsrc_attr_missing (st : unit) (key : string)
    (use_indices : bool) (resource_name : string) (path : list string)
    : result value :=
  if String.eqb resource_name "1" then Raise (External "NotFound")
  else Ok (VStr (Py.join "/" (resource_name :: path))).

(** A nested stack that cannot be read at all. *)
Definition sample_unavailable (st : unit) (key : string)
    (use_indices : bool) (resource_name : string) (path : list string)
    : result value :=
  Raise (External "NotFound").

(** An environment that knows one resource type and fails on the type
    name ["broken"]. *)
Definition sample_get_class (resource_type : string) : class_lookup :=
  if String.eqb resource_type "OS::Heat::RandomString" then ClassFound
  else if String.eqb resource_type "broken" then LookupRaised (External "StackValidationFailed")
  else EntityNotFound.

(** The sample chain with one more type declared at the end. *)
Definition sample_chain_extended : ResourceChain unit :=
  {| name := "chain";
     properties := {| resources := sample_types ++ ["OS::Nova::Server"];
                      concurrent := false;
                      resource_properties := VDict {[ "length" := VStr "8" ]} |};
     nested := tt;
     referenced_attrs := [AttrStr "show"] |}.

(** * Properties *)

(** ** Python primitives on sample inputs *)

Example split_three : Py.split "."%char 2 "resource.0.foo.bar" = ["resource"; "0"; "foo.bar"].
Proof. reflexivity. Qed.

Example split_two : Py.split "."%char 2 "resource.0" = ["resource"; "0"].
Proof. reflexivity. Qed.

Example split_trailing : Py.split "."%char 2 "resource.0." = ["resource"; "0"; ""].
Proof. reflexivity. Qed.

Example join_two : Py.join ", " ["attributes"; "status"] = "attributes, status".
Proof. reflexivity. Qed.

Example text_type_12 : Py.text_type 12 = "12".
Proof. reflexivity. Qed.

(** ** Strings *)

Lemma startswith_app (p r : string) : Py.startswith (p +:+ r) p = true.
Proof.
  induction p as [|c p IH]; simpl; [done|].
  by rewrite Ascii.eqb_refl.
Qed.

Lemma startswith_inv (s p : string) :
  Py.startswith s p = true → ∃ r, s = p +:+ r.
Proof.
  revert s. induction p as [|c p IH]; intros s; simpl.
  - intros _. by exists s.
  - destruct s as [|d s]; [done|].
    destruct (Ascii.eqb c d) eqn:E; [|done].
    apply Ascii.eqb_eq in E as ->.
    intros [r ->]%IH. by exists r.
Qed.

Lemma partition_absent (c : Ascii.ascii) (s : string) :
  occurs c s = false → Py.partition c s = None.
Proof.
  induction s as [|d s IH]; simpl; [done|].
  intros [-> Hs]%orb_false_iff. by rewrite IH.
Qed.

Lemma partition_first (c : Ascii.ascii) (a b : string) :
  occurs c a = false → Py.partition c (a +:+ String c b) = Some (a, b).
Proof.
  induction a as [|d a IH]; simpl.
  - intros _. by rewrite Ascii.eqb_refl.
  - intros [-> Ha]%orb_false_iff. by rewrite IH.
Qed.

Lemma partition_inv (c : Ascii.ascii) (s a b : string) :
  Py.partition c s = Some (a, b) → s = a +:+ String c b ∧ occurs c a = false.
Proof.
  revert a. induction s as [|d s IH]; intros a; simpl; [done|].
  destruct (Ascii.eqb d c) eqn:E.
  - apply Ascii.eqb_eq in E as ->. by intros [= <- <-].
  - destruct (Py.partition c s) as [[a' b']|]; [|done].
    intros [= <- <-]. destruct (IH a' eq_refl) as [-> Ha].
    simpl. by rewrite E.
Qed.

(** ** Comprehensions in the error monad *)

Lemma mapM_Ok_fmap {A B} (f : A → result B) (g : A → B) (l : list A) :
  Forall (λ x, f x = Ok (g x)) l → mapM f l = Ok (g <$> l).
Proof.
  induction 1 as [|x l Hx _ IH]; simpl; [done|].
  by rewrite Hx; simpl; rewrite IH.
Qed.

Lemma mapM_Raise {A B} (f : A → result B) (l1 l2 : list A) (x : A) (e : exn) :
  Forall (λ y, ∃ b, f y = Ok b) l1 → f x = Raise e →
  mapM f (l1 ++ x :: l2) = Raise e.
Proof.
  intros Hl1 Hx. induction Hl1 as [|y l1 [b Hy] _ IH]; simpl.
  - by rewrite Hx.
  - by rewrite Hy; simpl; rewrite IH.
Qed.

(** ** The slot namer *)

Lemma resource_names_seq (resource_types : list string) :
  _resource_names resource_types = Py.text_type <$> seq 0 (length resource_types).
Proof.
  unfold _resource_names, Py.enumerate.
  apply list_eq; intros i.
  rewrite !list_lookup_fmap, list_lookup_imap.
  destruct (resource_types !! i) as [t|] eqn:Hi; simpl.
  - rewrite lookup_seq_lt; [done|]. by eapply lookup_lt_Some.
  - rewrite lookup_ge_None_2; [done|].
    rewrite length_seq. by apply lookup_ge_None.
Qed.

Lemma resource_names_length (resource_types : list string) :
  length (_resource_names resource_types) = length resource_types.
Proof. by rewrite resource_names_seq, length_fmap, length_seq. Qed.

Lemma resource_names_lookup (resource_types : list string) (i : nat) :
  i < length resource_types →
  _resource_names resource_types !! i = Some (Py.text_type i).
Proof.
  intros Hi. rewrite resource_names_seq, list_lookup_fmap.
  by rewrite lookup_seq_lt.
Qed.

Lemma resource_names_NoDup (resource_types : list string) :
  NoDup (_resource_names resource_types).
Proof.
  rewrite resource_names_seq. apply NoDup_fmap_2; [|apply NoDup_seq].
  unfold Py.text_type. apply _.
Qed.

(** ** The template assembler *)

Lemma add_resource_fresh (name : string) (defn : ResourceDefinition)
    (rs : list (string * ResourceDefinition)) :
  name ∉ rs.*1 → add_resource name defn rs = rs ++ [(name, defn)].
Proof.
  induction rs as [|[k d] rs IH]; simpl; [done|].
  intros [Hk Hrs]%not_elem_of_cons.
  destruct (String.eqb k name) eqn:E.
  - by apply String.eqb_eq in E.
  - by rewrite IH.
Qed.

Lemma foldl_add_resource (acc l : list (string * ResourceDefinition)) :
  NoDup ((acc ++ l).*1) →
  foldl (λ rs nd, add_resource nd.1 nd.2 rs) acc l = acc ++ l.
Proof.
  revert acc. induction l as [|[k d] l IH]; intros acc Hnd; simpl.
  - by rewrite app_nil_r.
  - rewrite add_resource_fresh.
    + rewrite IH; rewrite <- app_assoc; [done|]. exact Hnd.
    + rewrite fmap_app in Hnd. apply NoDup_app in Hnd as (_ & Hdisj & _).
      intros Hin. apply (Hdisj k Hin). simpl. left.
Qed.

Lemma make_template_resources (name_def_tuples : list (string * ResourceDefinition)) :
  NoDup (name_def_tuples.*1) →
  tmpl_resources (make_template name_def_tuples) = name_def_tuples.
Proof. intros Hnd. simpl. by rewrite foldl_add_resource. Qed.

Lemma foldl_add_output (t : Template) (odefns : list OutputDefinition) :
  foldl add_output t odefns =
  {| tmpl_resources := tmpl_resources t;
     tmpl_outputs := tmpl_outputs t ++ odefns |}.
Proof.
  revert t. induction odefns as [|o odefns IH]; intros t; simpl.
  - rewrite app_nil_r. by destruct t.
  - rewrite IH. simpl. by rewrite <- app_assoc.
Qed.

(** ** The output projector *)

Lemma split_resource_prefix (rest : string) :
  Py.split "." 2 ("resource." +:+ rest) =
  "resource" :: match Py.partition "." rest with
                | Some (res_name, attr_name) => [res_name; attr_name]
                | None => [rest]
                end.
Proof.
  change (Py.split "." 2 ("resource." +:+ rest))
    with ("resource" :: Py.split "." 1 rest).
  simpl. by destruct (Py.partition "." rest) as [[??]|].
Qed.

(** The body of the generator never raises: the key it indexes at
    position 1 starts with ["resource."], hence has two components. *)
Lemma nested_output_defns_body_Ok (resource_names : list string)
    (get_attr_fn : list string → value) (a : attr) :
  _nested_output_defns_body resource_names get_attr_fn a =
  Ok (yields resource_names get_attr_fn a).
Proof.
  unfold _nested_output_defns_body, yields.
  destruct a as [s|k p]; cbn [attr_key attr_path attr_output_name].
  - destruct (Py.startswith s "resource.") eqn:Hpre.
    + apply startswith_inv in Hpre as [rest ->].
      rewrite split_resource_prefix.
      destruct (Py.partition "." rest) as [[res_name attr_name]|]; simpl.
      * by destruct (Py.contains res_name resource_names).
      * done.
    + destruct (String.eqb s ATTR_ATTRIBUTES); simpl;
        by destruct (Py.contains s ATTRIBUTES).
  - destruct (Py.startswith k "resource.") eqn:Hpre.
    + apply startswith_inv in Hpre as [rest ->].
      rewrite split_resource_prefix.
      destruct (Py.partition "." rest) as [[res_name attr_name]|]; simpl.
      * by destruct (Py.contains res_name resource_names).
      * done.
    + destruct (String.eqb k ATTR_ATTRIBUTES && Py.truthy p); simpl; [done|].
      by destruct (Py.contains k ATTRIBUTES).
Qed.

Lemma nested_output_defns_Ok {Stack} (self : ResourceChain Stack)
    (resource_names : list string) (get_attr_fn : list string → value) :
  _nested_output_defns self resource_names get_attr_fn =
  Ok (concat (yields resource_names get_attr_fn <$> referenced_attrs self)).
Proof.
  unfold _nested_output_defns.
  rewrite (mapM_Ok_fmap _ (yields resource_names get_attr_fn)); [done|].
  apply Forall_forall. intros a _. apply nested_output_defns_body_Ok.
Qed.

Lemma yields_length (resource_names : list string)
    (get_attr_fn : list string → value) (a : attr) :
  length (yields resource_names get_attr_fn a) ≤ 1.
Proof.
  unfold yields.
  repeat case_match; simpl; lia.
Qed.

Lemma concat_yields_length (resource_names : list string)
    (get_attr_fn : list string → value) (attrs : list attr) :
  length (concat (yields resource_names get_attr_fn <$> attrs)) ≤ length attrs.
Proof.
  induction attrs as [|a attrs IH]; [done|].
  rewrite fmap_cons. cbn [concat length].
  rewrite length_app. pose proof (yields_length resource_names get_attr_fn a). lia.
Qed.

(** ** Template synthesis *)

Lemma getitem_resource_names (resource_types : list string) (i : nat) :
  i < length resource_types →
  Py.getitem (_resource_names resource_types) i = Ok (Py.text_type i).
Proof.
  intros Hi. unfold Py.getitem. by rewrite resource_names_lookup.
Qed.

Lemma child_specs_names {Stack} (self : ResourceChain Stack)
    (resource_types : list string) :
  (imap (child_spec self) resource_types).*1 = _resource_names resource_types.
Proof.
  unfold _resource_names, Py.enumerate.
  rewrite !fmap_imap. by apply imap_ext.
Qed.

(** The loop of [child_template] never raises and builds [child_spec]
    for each position. *)
Lemma child_template_loop {Stack} (self : ResourceChain Stack) :
  let resource_types := resources (properties self) in
  let resource_names := _resource_names resource_types in
  mapM (λ it : nat * string,
      let '(index, rt) := it in
      name ← Py.getitem resource_names index;
      depends_on ←
        (if (0 <? index) && negb (concurrent (properties self)) then
           prev ← Py.getitem resource_names (index - 1);
           mret (Some [prev])
         else mret None);
      let t := (name, _build_resource_definition self name rt depends_on) in
      mret t) (Py.enumerate resource_types)
  = Ok (imap (child_spec self) resource_types).
Proof.
  intros resource_types resource_names.
  rewrite (mapM_Ok_fmap _ (λ it, child_spec self it.1 it.2)).
  - unfold Py.enumerate. rewrite fmap_imap. f_equal.
  - apply Forall_forall. intros [index rt] Hin.
    apply elem_of_lookup_imap in Hin as (i & t & [= -> ->] & Hi).
    apply lookup_lt_Some in Hi.
    subst resource_names. rewrite (getitem_resource_names _ i Hi). simpl.
    unfold child_spec, _build_resource_definition, predecessor. simpl.
    destruct (concurrent (properties self)); simpl.
    + by rewrite andb_false_r.
    + rewrite andb_true_r. destruct i as [|j]; simpl; [done|].
      rewrite Nat.sub_0_r, (getitem_resource_names _ j) by lia. done.
Qed.

Lemma child_template_Ok {Stack} (self : ResourceChain Stack) :
  child_template self =
  Ok {| tmpl_resources := imap (child_spec self) (resources (properties self));
        tmpl_outputs :=
          concat (yields (_resource_names (resources (properties self)))
                         (VFunction "get_attr") <$> referenced_attrs self) |}.
Proof.
  unfold child_template. rewrite child_template_loop. simpl.
  rewrite nested_output_defns_Ok. simpl.
  rewrite foldl_add_output, child_specs_names. f_equal. f_equal.
  apply make_template_resources.
  rewrite child_specs_names. apply resource_names_NoDup.
Qed.

(** ** The slot namer: distinct, position-determined identifiers *)

(** C8: for a type list of length N the slot namer yields N identifiers,
    pairwise distinct; the identifier at a position is the decimal numeral
    of that position, whatever the type names are, so any list of the same
    length gets the same identifiers, and two positions holding the same
    type name get different identifiers. *)
Theorem resource_names_distinct_by_position (resource_types : list string) :
  length (_resource_names resource_types) = length resource_types ∧
  NoDup (_resource_names resource_types) ∧
  (∀ i, i < length resource_types →
     _resource_names resource_types !! i = Some (Py.text_type i)) ∧
  (∀ other_types, length other_types = length resource_types →
     _resource_names other_types = _resource_names resource_types) ∧
  (∀ i j t, i ≠ j →
     resource_types !! i = Some t → resource_types !! j = Some t →
     _resource_names resource_types !! i ≠ _resource_names resource_types !! j).
Proof.
  split_and!.
  - apply resource_names_length.
  - apply resource_names_NoDup.
  - apply resource_names_lookup.
  - intros other_types Hlen. by rewrite !resource_names_seq, Hlen.
  - intros i j t Hij Hi%lookup_lt_Some Hj%lookup_lt_Some.
    rewrite !resource_names_lookup by done.
    intros [= Heq]. apply Hij. unfold Py.text_type in Heq.
    by apply (inj pretty) in Heq.
Qed.

Lemma resource_names_distinct_by_position_witness :
  _resource_names sample_types !! 2 = Some "2" ∧
  _resource_names ["a"; "b"; "c"] = _resource_names sample_types ∧
  _resource_names sample_types !! 0 ≠ _resource_names sample_types !! 2.
Proof.
  destruct (resource_names_distinct_by_position sample_types)
    as (_ & _ & Hpos & Hlen & Hdup).
  split_and!.
  - apply (Hpos 2). simpl. lia.
  - apply Hlen. reflexivity.
  - apply (Hdup 0 2 "OS::Heat::RandomString"); [lia | reflexivity | reflexivity].
Defined.

(** ** Template synthesis: dependencies, types, the empty chain *)

(** C1: synthesis succeeds, and the child at position [i] is named by the
    slot identifier of that position; child 0 has no dependency, and a
    later child depends on exactly the slot identifier at position [i-1]
    when the chain is sequential and on nothing when it is concurrent. *)
Theorem child_template_dependency {Stack} (self : ResourceChain Stack)
    (i : nat) (rt : string) :
  resources (properties self) !! i = Some rt →
  ∃ t name d,
    child_template self = Ok t ∧
    tmpl_resources t !! i = Some (name, d) ∧
    _resource_names (resources (properties self)) !! i = Some name ∧
    match i with
    | 0 => depends d = None
    | S j =>
        if concurrent (properties self) then depends d = None
        else ∃ prev,
               _resource_names (resources (properties self)) !! j = Some prev ∧
               depends d = Some [prev]
    end.
Proof.
  intros Hi. eexists _, _, _. split; [apply child_template_Ok|].
  pose proof (lookup_lt_Some _ _ _ Hi) as Hlt.
  simpl. rewrite list_lookup_imap, Hi. simpl.
  split; [reflexivity|]. split; [by apply resource_names_lookup|].
  unfold predecessor. destruct i as [|j].
  - by destruct (concurrent (properties self)).
  - destruct (concurrent (properties self)); [done|].
    exists (Py.text_type j). split; [|done].
    apply resource_names_lookup. lia.
Qed.

Lemma child_template_dependency_witness :
  ∃ t name d,
    child_template (sample_chain false []) = Ok t ∧
    tmpl_resources t !! 2 = Some (name, d) ∧
    _resource_names sample_types !! 2 = Some name ∧
    ∃ prev, _resource_names sample_types !! 1 = Some prev ∧
            depends d = Some [prev].
Proof.
  exact (child_template_dependency (sample_chain false []) 2
           "OS::Heat::RandomString" eq_refl).
Defined.

(** C9: reading the type field of the synthesized child specifications,
    in order, gives back the declared type list. *)
Theorem child_template_types_roundtrip {Stack} (self : ResourceChain Stack) :
  ∃ t, child_template self = Ok t ∧
       (λ nd, resource_type nd.2) <$> tmpl_resources t =
       resources (properties self).
Proof.
  eexists. split; [apply child_template_Ok|]. simpl.
  rewrite fmap_imap.
  rewrite (imap_ext _ (λ _ rt, rt)) by done.
  induction (resources (properties self)) as [|rt l IH]; [done|].
  rewrite imap_cons. f_equal. exact IH.
Qed.

Lemma yields_no_children (get_attr_fn : list string → value) (a : attr) :
  Forall (λ o, empty_aggregate (output_value o)) (yields [] get_attr_fn a).
Proof.
  assert (Hnone : ∀ x, Py.contains x [] = false).
  { intros x. apply bool_decide_eq_false_2, not_elem_of_nil. }
  unfold yields, empty_aggregate.
  repeat case_match; try (by constructor);
    try (rewrite Hnone in *; discriminate);
    (constructor; [|by constructor]); simpl; [by right | by left].
Qed.

(** C7, as the code has it: for an empty declared type list, synthesis
    gives a nested template with zero children; it has zero output
    definitions when the owning template refers to no attribute of the
    chain, and in general at most one per referenced attribute, each
    holding an aggregate over no child (an empty sequence or an empty
    mapping). *)
Theorem child_template_empty {Stack} (self : ResourceChain Stack) :
  resources (properties self) = [] →
  ∃ t, child_template self = Ok t ∧
       tmpl_resources t = [] ∧
       length (tmpl_outputs t) ≤ length (referenced_attrs self) ∧
       Forall (λ o, empty_aggregate (output_value o)) (tmpl_outputs t) ∧
       (referenced_attrs self = [] → tmpl_outputs t = []).
Proof.
  intros Hnil. eexists. split; [apply child_template_Ok|]. simpl.
  rewrite Hnil. split_and!.
  - done.
  - apply concat_yields_length.
  - apply Forall_concat, Forall_fmap, Forall_forall.
    intros a _. apply yields_no_children.
  - by intros ->.
Qed.

Lemma child_template_empty_witness :
  ∃ t, child_template (empty_chain [AttrStr "show"]) = Ok t ∧
       tmpl_resources t = [] ∧
       length (tmpl_outputs t) ≤ 1 ∧
       Forall (λ o, empty_aggregate (output_value o)) (tmpl_outputs t) ∧
       (referenced_attrs (empty_chain [AttrStr "show"]) = [] → tmpl_outputs t = []).
Proof.
  exact (child_template_empty (empty_chain [AttrStr "show"]) eq_refl).
Defined.

(** C7, as stated, fails: a chain that declares no type but whose
    attribute [show] is referenced by the owning template gets one output
    definition, whose value is the empty sequence. *)
Lemma child_template_empty_has_output :
  child_template (empty_chain [AttrStr "show"]) =
    Ok {| tmpl_resources := [];
          tmpl_outputs := [ {| output_name := "show"; output_value := VList [] |} ] |} ∧
  ¬ (∀ Stack (self : ResourceChain Stack),
       resources (properties self) = [] →
       ∃ t, child_template self = Ok t ∧
            tmpl_resources t = [] ∧ tmpl_outputs t = []).
Proof.
  split; [reflexivity|].
  intros Hclaim.
  destruct (Hclaim unit (empty_chain [AttrStr "show"]) eq_refl)
    as (t & Ht & _ & Houts).
  injection Ht as <-. discriminate Houts.
Qed.

(** ** The output projector *)

(** C2: the projector never raises; every referenced attribute makes it
    yield at most one output definition, so that, whatever the children
    are, it yields no more definitions than there are referenced
    attributes. *)
Theorem nested_output_defns_bounded {Stack} (self : ResourceChain Stack)
    (resource_names : list string) (get_attr_fn : list string → value) :
  (∀ a, ∃ ys, _nested_output_defns_body resource_names get_attr_fn a = Ok ys ∧
              length ys ≤ 1) ∧
  ∃ odefns, _nested_output_defns self resource_names get_attr_fn = Ok odefns ∧
            length odefns ≤ length (referenced_attrs self).
Proof.
  split.
  - intros a. eexists. split; [apply nested_output_defns_body_Ok|].
    apply yields_length.
  - eexists. split; [apply nested_output_defns_Ok|].
    apply concat_yields_length.
Qed.

(** Five children and one referenced generic attribute: one output. *)
Example five_children_one_output :
  _nested_output_defns (empty_chain [AttrStr "show"])
    (_resource_names ["a"; "b"; "c"; "d"; "e"]) (VFunction "get_attr") =
  Ok [ {| output_name := "show";
          output_value := VList [VFunction "get_attr" ["0"; "show"];
                                 VFunction "get_attr" ["1"; "show"];
                                 VFunction "get_attr" ["2"; "show"];
                                 VFunction "get_attr" ["3"; "show"];
                                 VFunction "get_attr" ["4"; "show"]] |} ].
Proof. reflexivity. Qed.

(** C10: a referenced attribute whose key is [refs] makes the projector
    yield nothing, with or without a path after the key. *)
Theorem nested_output_defns_refs_excluded (resource_names : list string)
    (get_attr_fn : list string → value) (a : attr) :
  attr_key a = REFS →
  _nested_output_defns_body resource_names get_attr_fn a = Ok [].
Proof.
  intros Hkey. rewrite nested_output_defns_body_Ok. f_equal.
  unfold yields. rewrite Hkey. reflexivity.
Qed.

Lemma nested_output_defns_refs_excluded_witness :
  _nested_output_defns_body ["0"; "1"] (VFunction "get_attr")
    (AttrTuple "refs" ["0"]) = Ok [].
Proof.
  exact (nested_output_defns_refs_excluded ["0"; "1"] (VFunction "get_attr")
           (AttrTuple "refs" ["0"]) eq_refl).
Defined.

Lemma yields_resource_path (resource_names : list string)
    (get_attr_fn : list string → value) (a : attr) (rest : string) :
  attr_key a = "resource." +:+ rest →
  yields resource_names get_attr_fn a =
  match Py.partition "." rest with
  | Some (res_name, attr_name) =>
      if Py.contains res_name resource_names then
        [ {| output_name := attr_output_name a;
             output_value := get_attr_fn (res_name :: attr_name :: attr_path a) |} ]
      else []
  | None => []
  end.
Proof.
  intros Hkey. unfold yields. rewrite Hkey, startswith_app, split_resource_prefix.
  by destruct (Py.partition "." rest) as [[??]|].
Qed.

(** A key [resource.<slot>] with no separator after the slot identifier
    yields nothing, whatever path comes with it. *)
Lemma nested_output_defns_no_attribute (resource_names : list string)
    (get_attr_fn : list string → value) (a : attr) (slot : string) :
  attr_key a = "resource." +:+ slot → occurs "." slot = false →
  _nested_output_defns_body resource_names get_attr_fn a = Ok [].
Proof.
  intros Hkey Hslot. rewrite nested_output_defns_body_Ok.
  by rewrite (yields_resource_path _ _ _ slot Hkey), partition_absent.
Qed.

(** C6, as the code has it: for a referenced attribute whose key starts
    with ["resource."], the projector yields an output exactly when the
    key reads [resource.<slot>.<attribute>], with a separator after the
    slot identifier, and the slot is among the current children.  The
    attribute component may be the empty text, as in ["resource.0."].
    The output is named by the referenced attribute (the raw key itself
    when it is plain text) and holds the lookup of that attribute, and of
    the path that follows it, in that one child. *)
Theorem nested_output_defns_resource_path (resource_names : list string)
    (get_attr_fn : list string → value) (a : attr) :
  Py.startswith (attr_key a) "resource." = true →
  ∃ ys,
    _nested_output_defns_body resource_names get_attr_fn a = Ok ys ∧
    (ys ≠ [] ↔
       ∃ slot attr_name,
         attr_key a = "resource." +:+ slot +:+ "." +:+ attr_name ∧
         occurs "." slot = false ∧ slot ∈ resource_names) ∧
    (∀ slot attr_name,
       attr_key a = "resource." +:+ slot +:+ "." +:+ attr_name →
       occurs "." slot = false → ys ≠ [] →
       ys = [ {| output_name := attr_output_name a;
                 output_value :=
                   get_attr_fn (slot :: attr_name :: attr_path a) |} ]).
Proof.
  intros [rest Hkey]%startswith_inv.
  eexists. split; [apply nested_output_defns_body_Ok|].
  rewrite (yields_resource_path _ _ _ rest Hkey).
  assert (Hdec : ∀ slot attr_name,
    attr_key a = "resource." +:+ slot +:+ "." +:+ attr_name →
    occurs "." slot = false →
    Py.partition "." rest = Some (slot, attr_name)).
  { intros slot attr_name Hk Hslot. rewrite Hkey in Hk.
    simpl in Hk. injection Hk as Hk.
    change (rest = slot +:+ String "." attr_name) in Hk.
    subst rest. by apply partition_first. }
  destruct (Py.partition "." rest) as [[res_name attr_name]|] eqn:Hpart.
  - destruct (partition_inv _ _ _ _ Hpart) as [Hrest Hres].
    unfold Py.contains. case_bool_decide as Hin.
    + split.
      * split; [|done]. intros _. exists res_name, attr_name.
        by rewrite Hkey, Hrest.
      * intros slot an Hk Hslot _.
        pose proof (Hdec slot an Hk Hslot) as Heq.
        by injection Heq as -> ->.
    + split.
      * split; [done|]. intros (slot & an & Hk & Hslot & Hmem).
        pose proof (Hdec slot an Hk Hslot) as Heq.
        injection Heq as -> ->. done.
      * done.
  - split.
    + split; [done|]. intros (slot & an & Hk & Hslot & _).
      pose proof (Hdec slot an Hk Hslot) as Heq.
      discriminate Heq.
    + done.
Qed.

Lemma nested_output_defns_resource_path_witness :
  ∃ ys,
    _nested_output_defns_body ["0"; "1"] (VFunction "get_attr")
      (AttrStr "resource.1.show") = Ok ys ∧
    ys = [ {| output_name := "resource.1.show";
              output_value := VFunction "get_attr" ["1"; "show"] |} ].
Proof.
  destruct (nested_output_defns_resource_path ["0"; "1"] (VFunction "get_attr")
              (AttrStr "resource.1.show") eq_refl) as (ys & Hys & Hiff & Hval).
  exists ys. split; [exact Hys|].
  apply (Hval "1" "show"); [reflexivity | reflexivity |].
  apply Hiff. exists "1", "show".
  split; [reflexivity|]. split; [reflexivity|]. repeat constructor.
Defined.

(** C6, as stated, fails: in the key ["resource.0."] nothing follows the
    slot identifier but the separator, and the projector still yields an
    output for it. *)
Lemma nested_output_defns_empty_attribute_emitted :
  _nested_output_defns_body ["0"] (VFunction "get_attr") (AttrStr "resource.0.") =
    Ok [ {| output_name := "resource.0.";
            output_value := VFunction "get_attr" ["0"; ""] |} ] ∧
  ¬ (∀ (resource_names : list string) (get_attr_fn : list string → value)
       (slot path_text : string),
       occurs "." slot = false →
       (_nested_output_defns_body resource_names get_attr_fn
          (AttrStr ("resource." +:+ slot +:+ "." +:+ path_text)) ≠ Ok []
        ↔ path_text ≠ "" ∧ slot ∈ resource_names)).
Proof.
  split; [reflexivity|].
  intros Hclaim.
  destruct (Hclaim ["0"] (VFunction "get_attr") "0" "" eq_refl) as [Hemit _].
  destruct Hemit as [Hpath _]; [discriminate|]. by apply Hpath.
Qed.

(** ** The attribute resolver *)

Lemma foldl_insert_lookup {V} (g : string → V) (l : list string)
    (m : gmap string V) (k : string) :
  foldl (λ m kv, <[kv.1 := kv.2]> m) m ((λ n, (n, g n)) <$> l) !! k =
  if bool_decide (k ∈ l) then Some (g k) else m !! k.
Proof.
  revert m. induction l as [|n l IH]; intros m.
  - rewrite bool_decide_eq_false_2; [done | apply not_elem_of_nil].
  - rewrite fmap_cons. cbn [foldl fst snd]. rewrite IH.
    destruct (decide (k ∈ l)) as [Hin|Hnin].
    + rewrite !bool_decide_eq_true_2; [done | by right | done].
    + rewrite (bool_decide_eq_false_2 (k ∈ l)) by done.
      destruct (decide (n = k)) as [->|Hne].
      * rewrite lookup_insert_eq, bool_decide_eq_true_2; [done | by left].
      * rewrite lookup_insert_ne by done.
        rewrite bool_decide_eq_false_2; [done|].
        intros [->|?]%elem_of_cons; done.
Qed.

Lemma dict_lookup {V} (g : string → V) (l : list string) (k : string) :
  Py.dict ((λ n, (n, g n)) <$> l) !! k =
  if bool_decide (k ∈ l) then Some (g k) else None.
Proof. unfold Py.dict. by rewrite foldl_insert_lookup, lookup_empty. Qed.

Section AttributeResolver.

Context {Stack : Type}.
Variable get_nested_attrs : Stack → string → bool → list string → result value.
Variable get_rsrc_id : Stack → string → bool → string → result value.
Variable get_rsrc_attr : Stack → string → bool → string → list string → result value.
Variable select_from_attribute : value → list string → result value.

Local Abbreviation resolve :=
  (get_attribute get_nested_attrs get_rsrc_id get_rsrc_attr select_from_attribute).

Local Abbreviation apply_rule :=
  (rule_result get_nested_attrs get_rsrc_id get_rsrc_attr select_from_attribute).

Lemma get_attribute_by_rule (self : ResourceChain Stack) (key : string)
    (path : list string) :
  resolve self key path = apply_rule (rule_of key) self key path.
Proof.
  unfold get_attribute, rule_of, apply_rule.
  destruct (Py.startswith key "resource."); [done|].
  destruct (String.eqb key REFS); [done|].
  destruct (String.eqb key ATTR_ATTRIBUTES); [|done].
  by destruct path.
Qed.

(** An exception raised by [grouputils.get_rsrc_attr] for a child, the
    children before it having answered, leaves [get_attribute] unchanged. *)
Lemma get_attribute_unavailable_child (self : ResourceChain Stack)
    (key : string) (path l1 l2 : list string) (n : string) (e : exn) :
  rule_of key = GenericRule →
  _resource_names (resources (properties self)) = l1 ++ n :: l2 →
  Forall (λ m, ∃ v, get_rsrc_attr (nested self) key false m (key :: path) = Ok v) l1 →
  get_rsrc_attr (nested self) key false n (key :: path) = Raise e →
  resolve self key path = Raise e.
Proof.
  intros Hrule Hnames Hbefore Hfail.
  rewrite get_attribute_by_rule, Hrule. simpl. rewrite Hnames.
  by rewrite (mapM_Raise _ l1 l2 n e Hbefore Hfail).
Qed.

(** C3: resolving [attributes] without a path raises
    [InvalidTemplateAttribute]; with a path, and every child answering,
    it returns the mapping that sends each slot identifier, and nothing
    else, to the value fetched at that path from that child. *)
Theorem get_attribute_attributes (self : ResourceChain Stack) :
  resolve self ATTR_ATTRIBUTES [] =
    Raise (InvalidTemplateAttribute (name self) ATTR_ATTRIBUTES) ∧
  ∀ (path : list string) (fetched : string → value),
    path ≠ [] →
    (∀ n, n ∈ _resource_names (resources (properties self)) →
       get_rsrc_attr (nested self) ATTR_ATTRIBUTES false n path = Ok (fetched n)) →
    ∃ d, resolve self ATTR_ATTRIBUTES path = Ok (VDict d) ∧
         ∀ n, d !! n =
              if bool_decide (n ∈ _resource_names (resources (properties self)))
              then Some (fetched n) else None.
Proof.
  split; [reflexivity|].
  intros path fetched Hpath Hfetch.
  rewrite get_attribute_by_rule.
  change (rule_of ATTR_ATTRIBUTES) with AttributesRule. simpl.
  destruct path as [|p path]; [done|].
  rewrite (mapM_Ok_fmap _ (λ n, (n, fetched n))).
  - eexists. split; [reflexivity|]. intros n. apply dict_lookup.
  - apply Forall_forall. intros n Hn. by rewrite (Hfetch n Hn).
Qed.

(** C4: resolving [refs] without a path, every child having an identity
    and the selection along an empty path being the identity, returns the
    sequence of the N child identities, in the order of the slots. *)
Theorem get_attribute_refs (self : ResourceChain Stack) (ident : string → value) :
  (∀ v, select_from_attribute v [] = Ok v) →
  (∀ n, n ∈ _resource_names (resources (properties self)) →
     get_rsrc_id (nested self) REFS false n = Ok (ident n)) →
  ∃ ids, resolve self REFS [] = Ok (VList ids) ∧
         length ids = length (resources (properties self)) ∧
         ∀ i, i < length (resources (properties self)) →
              ids !! i = Some (ident (Py.text_type i)).
Proof.
  intros Hselect Hid.
  rewrite get_attribute_by_rule.
  change (rule_of REFS) with RefsRule. simpl.
  rewrite (mapM_Ok_fmap _ ident).
  - simpl. rewrite Hselect. eexists. split; [reflexivity|]. split.
    + by rewrite length_fmap, resource_names_length.
    + intros i Hi. by rewrite list_lookup_fmap, resource_names_lookup.
  - apply Forall_forall. intros n Hn. by apply Hid.
Qed.

(** C5: a key that starts with ["resource."] resolves to the lookup of
    [grouputils.get_nested_attrs] for that key and path, whatever the
    declared children are; the conditions of the rules are tried in the
    order resource path, [refs], [attributes], generic, for every key. *)
Theorem get_attribute_resource_path (self : ResourceChain Stack)
    (key : string) (path : list string) :
  Py.startswith key "resource." = true →
  resolve self key path = get_nested_attrs (nested self) key false path ∧
  (∀ other : ResourceChain Stack,
     nested other = nested self →
     resolve other key path = resolve self key path) ∧
  rule_of key = ResourcePathRule ∧
  rule_of REFS = RefsRule ∧
  rule_of ATTR_ATTRIBUTES = AttributesRule ∧
  (∀ k p, resolve self k p = apply_rule (rule_of k) self k p).
Proof.
  intros Hpre. split_and!.
  - unfold get_attribute. by rewrite Hpre.
  - intros other Hnested. unfold get_attribute. by rewrite Hpre, Hnested.
  - unfold rule_of. by rewrite Hpre.
  - reflexivity.
  - reflexivity.
  - apply get_attribute_by_rule.
Qed.

End AttributeResolver.

Lemma get_attribute_attributes_witness :
  ∃ d, get_attribute sample_get_nested_attrs sample_get_rsrc_id
         sample_get_rsrc_attr sample_select_from_attribute
         (sample_chain false []) ATTR_ATTRIBUTES ["status"] = Ok (VDict d) ∧
       d !! "1" = Some (VStr "1/status").
Proof.
  destruct (get_attribute_attributes sample_get_nested_attrs sample_get_rsrc_id
              sample_get_rsrc_attr sample_select_from_attribute
              (sample_chain false [])) as [_ Hmap].
  destruct (Hmap ["status"] (λ n, VStr (Py.join "/" [n; "status"])))
    as (d & Hd & Hlookup).
  - discriminate.
  - intros n _. reflexivity.
  - exists d. split; [exact Hd|]. exact (Hlookup "1").
Defined.

Lemma get_attribute_refs_witness :
  ∃ ids, get_attribute sample_get_nested_attrs sample_get_rsrc_id
           sample_get_rsrc_attr sample_select_from_attribute
           (sample_chain false []) REFS [] = Ok (VList ids) ∧
         length ids = 3 ∧
         ∀ i, i < 3 → ids !! i = Some (VStr ("id-" +:+ Py.text_type i)).
Proof.
  apply (get_attribute_refs sample_get_nested_attrs sample_get_rsrc_id
           sample_get_rsrc_attr sample_select_from_attribute
           (sample_chain false []) (λ n, VStr ("id-" +:+ n))).
  - intros v. reflexivity.
  - intros n _. reflexivity.
Defined.

Lemma get_attribute_resource_path_witness :
  get_attribute sample_get_nested_attrs sample_get_rsrc_id
    sample_get_rsrc_attr sample_select_from_attribute
    (sample_chain false []) "resource.1.show" [] =
  sample_get_nested_attrs tt "resource.1.show" false [].
Proof.
  apply (get_attribute_resource_path sample_get_nested_attrs sample_get_rsrc_id
           sample_get_rsrc_attr sample_select_from_attribute
           (sample_chain false []) "resource.1.show" [] eq_refl).
Defined.

(** * Further properties of the plugin *)

(** ** The synthesized children *)

Lemma child_specs_lookup {Stack} (self : ResourceChain Stack)
    (resource_types : list string) (i : nat) (nd : string * ResourceDefinition) :
  imap (child_spec self) resource_types !! i = Some nd →
  ∃ rt, resource_types !! i = Some rt ∧ nd = child_spec self i rt.
Proof.
  rewrite list_lookup_imap.
  destruct (resource_types !! i) as [rt|]; simpl; [|done].
  intros [= <-]. by exists rt.
Qed.

(** X1: the children of the synthesized template are stored under the
    slot identifiers, in order; these keys are pairwise distinct, so the
    template has one child per declared type even when types repeat. *)
Theorem child_template_keys {Stack} (self : ResourceChain Stack) :
  ∃ t, child_template self = Ok t ∧
       (tmpl_resources t).*1 = _resource_names (resources (properties self)) ∧
       NoDup ((tmpl_resources t).*1) ∧
       length (tmpl_resources t) = length (resources (properties self)).
Proof.
  eexists. split; [apply child_template_Ok|]. simpl.
  rewrite child_specs_names. split_and!.
  - done.
  - apply resource_names_NoDup.
  - apply length_imap.
Qed.

(** X2: every child definition carries the key it is stored under as its
    own name, and the one property payload of the chain. *)
Theorem child_template_shared_properties {Stack} (self : ResourceChain Stack) :
  ∃ t, child_template self = Ok t ∧
       Forall (λ nd, defn_name nd.2 = nd.1 ∧
                     defn_properties nd.2 = resource_properties (properties self))
              (tmpl_resources t).
Proof.
  eexists. split; [apply child_template_Ok|]. simpl.
  apply Forall_lookup. intros i nd Hnd.
  by apply child_specs_lookup in Hnd as (rt & _ & ->).
Qed.

Lemma dependent_child_specs {Stack} (self : ResourceChain Stack)
    (resource_types : list string) (k : nat) :
  length (filter (λ nd, is_Some (depends nd.2))
            (imap (λ i, child_spec self (k + i)) resource_types)) =
  if concurrent (properties self) then 0
  else match k with
       | 0 => length resource_types - 1
       | S _ => length resource_types
       end.
Proof.
  revert k. induction resource_types as [|rt l IH]; intros k.
  - simpl. by repeat case_match.
  - rewrite imap_cons.
    rewrite (imap_ext _ (λ i, child_spec self (S k + i))); last first.
    { intros i x _. simpl. f_equal. lia. }
    pose proof (IH (S k)) as IHk. rewrite filter_cons.
    destruct (decide (is_Some (depends (child_spec self (k + 0) rt).2)))
      as [Hdep|Hdep]; simpl in Hdep; unfold predecessor in Hdep;
      cbn [length]; rewrite IHk; clear IHk;
      destruct (concurrent (properties self)).
    + by destruct Hdep.
    + rewrite Nat.add_0_r in Hdep. destruct k as [|k]; [by destruct Hdep|done].
    + done.
    + rewrite Nat.add_0_r in Hdep. destruct k as [|k]; [simpl; lia|].
      exfalso. apply Hdep. by eexists.
Qed.

(** X3: a dependency of a child always names a child stored earlier in
    the same template, so the dependencies form a chain without cycle or
    dangling name; a sequential chain of N children has N-1 dependent
    children (none when N is 0 or 1), a concurrent chain has none. *)
Theorem child_template_dependencies_earlier {Stack} (self : ResourceChain Stack) :
  ∃ t, child_template self = Ok t ∧
       (∀ i name d deps dep,
          tmpl_resources t !! i = Some (name, d) →
          depends d = Some deps → dep ∈ deps →
          ∃ j d', j < i ∧ tmpl_resources t !! j = Some (dep, d')) ∧
       dependent_children t =
         if concurrent (properties self) then 0
         else length (resources (properties self)) - 1.
Proof.
  eexists. split; [apply child_template_Ok|]. split.
  - simpl. intros i name d deps dep Hi Hdeps Hdep.
    apply child_specs_lookup in Hi as (rt & Hrt & [= -> ->]).
    simpl in Hdeps. unfold predecessor in Hdeps.
    destruct (concurrent (properties self)) eqn:Hc; [done|].
    destruct i as [|j]; [done|]. injection Hdeps as <-.
    apply list_elem_of_singleton in Hdep as ->.
    assert (is_Some (resources (properties self) !! j)) as [rt' Hrt'].
    { apply lookup_lt_is_Some. apply lookup_lt_Some in Hrt. lia. }
    exists j, (child_spec self j rt').2. split; [lia|].
    by rewrite list_lookup_imap, Hrt'.
  - unfold dependent_children. simpl.
    apply (dependent_child_specs self _ 0).
Qed.

Lemma child_template_dependencies_earlier_witness :
  ∃ t, child_template (sample_chain false []) = Ok t ∧
       (∃ j d', j < 2 ∧ tmpl_resources t !! j = Some ("1", d')) ∧
       dependent_children t = 2.
Proof.
  destruct (child_template_dependencies_earlier (sample_chain false []))
    as (t & Ht & Hdep & Hcount).
  exists t. split; [exact Ht|]. split; [|exact Hcount].
  rewrite child_template_Ok in Ht. injection Ht as <-.
  eapply (Hdep 2 "2" _ ["1"] "1"); [reflexivity | reflexivity | constructor].
Defined.

(** X4: declaring further types at the end of the list leaves the
    children already declared as they were: same keys, types, payload
    and dependencies, at the same positions. *)
Theorem child_template_append_stable {Stack} (self self' : ResourceChain Stack)
    (more : list string) :
  resources (properties self') = resources (properties self) ++ more →
  concurrent (properties self') = concurrent (properties self) →
  resource_properties (properties self') = resource_properties (properties self) →
  ∃ t t', child_template self = Ok t ∧ child_template self' = Ok t' ∧
          tmpl_resources t `prefix_of` tmpl_resources t' ∧
          length (tmpl_resources t') = length (tmpl_resources t) + length more.
Proof.
  intros Hres Hconc Hprops.
  eexists _, _. split; [apply child_template_Ok|].
  split; [apply child_template_Ok|]. simpl.
  rewrite Hres, imap_app. split.
  - rewrite (imap_ext (child_spec self') (child_spec self)).
    + by apply prefix_app_r.
    + intros i rt _. unfold child_spec. by rewrite Hconc, Hprops.
  - by rewrite length_app, !length_imap.
Qed.

Lemma child_template_append_stable_witness :
  ∃ t t', child_template (sample_chain false []) = Ok t ∧
          child_template sample_chain_extended = Ok t' ∧
          tmpl_resources t `prefix_of` tmpl_resources t' ∧
          length (tmpl_resources t') = length (tmpl_resources t) + 1.
Proof.
  exact (child_template_append_stable (sample_chain false [])
           sample_chain_extended ["OS::Nova::Server"] eq_refl eq_refl eq_refl).
Defined.

(** X5: the concurrency switch decides the dependencies and nothing
    else: two chains that differ in it only get children with the same
    keys, types and payload, and the same output definitions. *)
Theorem child_template_concurrent_only_depends {Stack}
    (self self' : ResourceChain Stack) :
  resources (properties self') = resources (properties self) →
  resource_properties (properties self') = resource_properties (properties self) →
  referenced_attrs self' = referenced_attrs self →
  ∃ t t', child_template self = Ok t ∧ child_template self' = Ok t' ∧
          (λ nd, (nd.1, defn_name nd.2, resource_type nd.2, defn_properties nd.2))
            <$> tmpl_resources t' =
          (λ nd, (nd.1, defn_name nd.2, resource_type nd.2, defn_properties nd.2))
            <$> tmpl_resources t ∧
          tmpl_outputs t' = tmpl_outputs t.
Proof.
  intros Hres Hprops Hattrs.
  eexists _, _. split; [apply child_template_Ok|].
  split; [apply child_template_Ok|]. simpl.
  rewrite Hres, Hattrs. split; [|done].
  rewrite !fmap_imap. apply imap_ext. intros i rt _. simpl. by rewrite Hprops.
Qed.

Lemma child_template_concurrent_only_depends_witness :
  ∃ t t', child_template (sample_chain false [AttrStr "show"]) = Ok t ∧
          child_template (sample_chain true [AttrStr "show"]) = Ok t' ∧
          (λ nd, (nd.1, defn_name nd.2, resource_type nd.2, defn_properties nd.2))
            <$> tmpl_resources t' =
          (λ nd, (nd.1, defn_name nd.2, resource_type nd.2, defn_properties nd.2))
            <$> tmpl_resources t ∧
          tmpl_outputs t' = tmpl_outputs t.
Proof.
  exact (child_template_concurrent_only_depends
           (sample_chain false [AttrStr "show"])
           (sample_chain true [AttrStr "show"]) eq_refl eq_refl eq_refl).
Defined.

(** ** The projected outputs *)

Lemma yields_addresses_children (resource_names : list string) (a : attr) :
  Forall (λ o, addresses_children resource_names (output_value o))
         (yields resource_names (VFunction "get_attr") a).
Proof.
  unfold yields.
  destruct (Py.startswith (attr_key a) "resource.").
  - destruct (Py.split "." 2 (attr_key a)) as [|? [|res_name [|attr_name [|??]]]];
      try by constructor.
    unfold Py.contains. case_bool_decide as Hin; [|by constructor].
    apply Forall_singleton. left. by eexists _, _.
  - destruct (String.eqb (attr_key a) ATTR_ATTRIBUTES && Py.truthy (attr_path a)).
    + apply Forall_singleton. right. right. eexists. split; [done|].
      intros k x. rewrite (dict_lookup (λ r, VFunction "get_attr" (r :: attr_path a))).
      case_bool_decide; [|done]. intros [= <-]. split; [done|]. by eexists.
    + destruct (negb (Py.contains (attr_key a) ATTRIBUTES)); [|by constructor].
      apply Forall_singleton. right. left. eexists. split; [done|].
      split; [by rewrite length_fmap|].
      apply Forall_fmap, Forall_forall. intros r Hr. by eexists _, _.
Qed.

(** X6: every output definition of the synthesized template addresses
    children of that template only: its value is a [get_attr] on one
    existing child, a sequence holding one [get_attr] on an existing child
    per child, or a mapping from keys of children to a [get_attr] on that
    very child. *)
Theorem child_template_outputs_address_children {Stack} (self : ResourceChain Stack) :
  ∃ t, child_template self = Ok t ∧
       Forall (λ o, addresses_children ((tmpl_resources t).*1) (output_value o))
              (tmpl_outputs t).
Proof.
  eexists. split; [apply child_template_Ok|]. simpl.
  rewrite child_specs_names.
  apply Forall_concat, Forall_fmap, Forall_forall.
  intros a _. apply yields_addresses_children.
Qed.

(** X7: a referenced attribute whose key has no ["resource."] prefix and
    is none of the two reserved names makes the projector yield one
    output, named after the attribute; its value is a sequence with one
    entry per child, in the order of the children, the entry of child [r]
    being [get_attr_fn] applied to [r], the key and the path. *)
Theorem nested_output_defns_generic (resource_names : list string)
    (get_attr_fn : list string → value) (a : attr) :
  Py.startswith (attr_key a) "resource." = false →
  attr_key a ≠ REFS → attr_key a ≠ ATTR_ATTRIBUTES →
  ∃ vals,
    _nested_output_defns_body resource_names get_attr_fn a =
      Ok [ {| output_name := attr_output_name a; output_value := VList vals |} ] ∧
    length vals = length resource_names ∧
    ∀ i r, resource_names !! i = Some r →
           vals !! i = Some (get_attr_fn (r :: attr_key a :: attr_path a)).
Proof.
  intros Hpre Hrefs Hattrs.
  rewrite nested_output_defns_body_Ok. unfold yields. rewrite Hpre.
  rewrite (proj2 (String.eqb_neq _ _) Hattrs). simpl.
  unfold Py.contains, ATTRIBUTES. rewrite bool_decide_eq_false_2; simpl.
  - eexists. split; [reflexivity|]. split; [by rewrite length_fmap|].
    intros i r Hr. by rewrite list_lookup_fmap, Hr.
  - intros [?|[?|?%elem_of_nil]%elem_of_cons]%elem_of_cons; [| |done].
    + by apply Hrefs.
    + by apply Hattrs.
Qed.

Lemma nested_output_defns_generic_witness :
  ∃ vals,
    _nested_output_defns_body ["0"; "1"] (VFunction "get_attr")
      (AttrTuple "show" ["ip"]) =
      Ok [ {| output_name := "show, ip"; output_value := VList vals |} ] ∧
    length vals = 2 ∧
    ∀ i r, ["0"; "1"] !! i = Some r →
           vals !! i = Some (VFunction "get_attr" [r; "show"; "ip"]).
Proof.
  apply (nested_output_defns_generic ["0"; "1"] (VFunction "get_attr")
           (AttrTuple "show" ["ip"])); [reflexivity | discriminate | discriminate].
Defined.

(** X8: the reserved key [attributes] is projected only when a path
    comes with it.  Then the projector yields one output whose value maps
    exactly the children's names, each to [get_attr_fn] applied to the
    name and the path, the key [attributes] itself left out. *)
Theorem nested_output_defns_attributes (resource_names : list string)
    (get_attr_fn : list string → value) (a : attr) :
  attr_key a = ATTR_ATTRIBUTES →
  match attr_path a with
  | [] => _nested_output_defns_body resource_names get_attr_fn a = Ok []
  | _ :: _ =>
      ∃ d, _nested_output_defns_body resource_names get_attr_fn a =
             Ok [ {| output_name := attr_output_name a; output_value := VDict d |} ] ∧
           ∀ r, d !! r = if bool_decide (r ∈ resource_names)
                         then Some (get_attr_fn (r :: attr_path a)) else None
  end.
Proof.
  intros Hkey.
  rewrite nested_output_defns_body_Ok. unfold yields. rewrite Hkey.
  change (Py.startswith ATTR_ATTRIBUTES "resource.") with false.
  change (String.eqb ATTR_ATTRIBUTES ATTR_ATTRIBUTES) with true.
  change (negb (Py.contains ATTR_ATTRIBUTES ATTRIBUTES)) with false.
  destruct (attr_path a) as [|p path]; simpl; [done|].
  eexists. split; [reflexivity|].
  intros r. apply (dict_lookup (λ r, get_attr_fn (r :: p :: path))).
Qed.

Lemma nested_output_defns_attributes_witness :
  ∃ d, _nested_output_defns_body ["0"; "1"] (VFunction "get_attr")
         (AttrTuple "attributes" ["status"]) =
         Ok [ {| output_name := "attributes, status"; output_value := VDict d |} ] ∧
       ∀ r, d !! r = if bool_decide (r ∈ ["0"; "1"])
                     then Some (VFunction "get_attr" [r; "status"]) else None.
Proof.
  exact (nested_output_defns_attributes ["0"; "1"] (VFunction "get_attr")
           (AttrTuple "attributes" ["status"]) eq_refl).
Defined.

Lemma yields_named (resource_names : list string)
    (get_attr_fn : list string → value) (a : attr) :
  yields resource_names get_attr_fn a = [] ∨
  ∃ v, yields resource_names get_attr_fn a =
       [ {| output_name := attr_output_name a; output_value := v |} ].
Proof.
  unfold yields. repeat case_match; eauto.
Qed.

(** X9: the projector invents no output and keeps the order: the names
    of the outputs it yields, in order, are obtained from the names of
    the referenced attributes, in the order they are iterated, by leaving
    some of them out. *)
Theorem nested_output_defns_names_in_order {Stack} (self : ResourceChain Stack)
    (resource_names : list string) (get_attr_fn : list string → value) :
  ∃ odefns,
    _nested_output_defns self resource_names get_attr_fn = Ok odefns ∧
    (output_name <$> odefns) `sublist_of`
      (attr_output_name <$> referenced_attrs self).
Proof.
  eexists. split; [apply nested_output_defns_Ok|].
  induction (referenced_attrs self) as [|a attrs IH]; [done|].
  rewrite !fmap_cons. cbn [concat]. rewrite fmap_app.
  destruct (yields_named resource_names get_attr_fn a) as [->|[v ->]]; simpl.
  - by apply sublist_cons.
  - by apply sublist_skip.
Qed.

(** ** Aggregating resolution *)

Section AggregatingResolution.

Context {Stack : Type}.
Variable get_nested_attrs : Stack → string → bool → list string → result value.
Variable get_rsrc_id : Stack → string → bool → string → result value.
Variable get_rsrc_attr : Stack → string → bool → string → list string → result value.
Variable select_from_attribute : value → list string → result value.

Local Abbreviation resolve :=
  (get_attribute get_nested_attrs get_rsrc_id get_rsrc_attr select_from_attribute).

(** X10: a key without the ["resource."] prefix that is none of the two
    reserved names resolves, every child answering, to the sequence of
    the N values fetched from the children in the order of the slots,
    each asked for the key followed by the path. *)
Theorem get_attribute_generic (self : ResourceChain Stack) (key : string)
    (path : list string) (fetched : string → value) :
  Py.startswith key "resource." = false →
  key ≠ REFS → key ≠ ATTR_ATTRIBUTES →
  (∀ n, n ∈ _resource_names (resources (properties self)) →
     get_rsrc_attr (nested self) key false n (key :: path) = Ok (fetched n)) →
  ∃ vals, resolve self key path = Ok (VList vals) ∧
          length vals = length (resources (properties self)) ∧
          ∀ i, i < length (resources (properties self)) →
               vals !! i = Some (fetched (Py.text_type i)).
Proof.
  intros Hpre Hrefs%String.eqb_neq Hattrs%String.eqb_neq Hfetch.
  unfold get_attribute. rewrite Hpre, Hrefs, Hattrs. simpl.
  rewrite (mapM_Ok_fmap _ fetched).
  - eexists. split; [reflexivity|]. split.
    + by rewrite length_fmap, resource_names_length.
    + intros i Hi. by rewrite list_lookup_fmap, resource_names_lookup.
  - apply Forall_forall. intros n Hn. by apply Hfetch.
Qed.

(** X11: when a child does not answer, the children before it having
    answered, the exception it raised is the outcome of the resolution,
    for the [attributes] key with a path as for a generic key; the
    children after it are not asked. *)
Theorem get_attribute_first_failure (self : ResourceChain Stack) (key : string)
    (path l1 l2 : list string) (n : string) (e : exn) :
  Py.startswith key "resource." = false →
  key ≠ REFS →
  (key = ATTR_ATTRIBUTES → path ≠ []) →
  _resource_names (resources (properties self)) = l1 ++ n :: l2 →
  Forall (λ m, ∃ v, get_rsrc_attr (nested self) key false m
                      (if String.eqb key ATTR_ATTRIBUTES then path else key :: path)
                    = Ok v) l1 →
  get_rsrc_attr (nested self) key false n
    (if String.eqb key ATTR_ATTRIBUTES then path else key :: path) = Raise e →
  resolve self key path = Raise e.
Proof.
  intros Hpre Hrefs%String.eqb_neq Hpath Hnames Hbefore Hfail.
  unfold get_attribute. rewrite Hpre, Hrefs, Hnames.
  destruct (String.eqb key ATTR_ATTRIBUTES) eqn:Hattrs.
  - apply String.eqb_eq in Hattrs. destruct path as [|p path]; [by destruct Hpath|].
    simpl. rewrite (mapM_Raise _ l1 l2 n e); [done| |by rewrite Hfail].
    eapply Forall_impl; [exact Hbefore|]. intros m [v Hv]. rewrite Hv. by eexists.
  - simpl. by rewrite (mapM_Raise _ l1 l2 n e Hbefore Hfail).
Qed.

(** X12: a chain that declares no type asks no child: whatever the
    nested stack answers, [refs] resolves to the selection in the empty
    sequence, [attributes] with a path to the empty mapping, and any
    other key without the ["resource."] prefix to the empty sequence. *)
Theorem get_attribute_no_children (self : ResourceChain Stack) (key : string)
    (path : list string) :
  resources (properties self) = [] →
  Py.startswith key "resource." = false →
  resolve self key path =
    if String.eqb key REFS then select_from_attribute (VList []) path
    else if String.eqb key ATTR_ATTRIBUTES then
      match path with
      | [] => Raise (InvalidTemplateAttribute (name self) key)
      | _ :: _ => Ok (VDict ∅)
      end
    else Ok (VList []).
Proof.
  intros Hnil Hpre. unfold get_attribute. rewrite Hpre, Hnil. simpl.
  destruct (String.eqb key REFS); [done|].
  destruct (String.eqb key ATTR_ATTRIBUTES); [|done].
  by destruct path.
Qed.

End AggregatingResolution.

Lemma get_attribute_generic_witness :
  ∃ vals, get_attribute sample_get_nested_attrs sample_get_rsrc_id
            sample_get_rsrc_attr sample_select_from_attribute
            (sample_chain false []) "show" ["ip"] = Ok (VList vals) ∧
          length vals = 3 ∧
          ∀ i, i < 3 →
               vals !! i = Some (VStr (Py.join "/" [Py.text_type i; "show"; "ip"])).
Proof.
  apply (get_attribute_generic sample_get_nested_attrs sample_get_rsrc_id
           sample_get_rsrc_attr sample_select_from_attribute
           (sample_chain false []) "show" ["ip"]
           (λ n, VStr (Py.join "/" [n; "show"; "ip"])));
    [reflexivity | discriminate | discriminate |].
  intros n _. reflexivity.
Defined.

Lemma get_attribute_first_failure_witness :
  get_attribute sample_get_nested_attrs sample_get_rsrc_id
    sample_get_rsrc_attr_missing sample_select_from_attribute
    (sample_chain false []) "show" [] = Raise (External "NotFound").
Proof.
  apply (get_attribute_first_failure sample_get_nested_attrs sample_get_rsrc_id
           sample_get_rsrc_attr_missing sample_select_from_attribute
           (sample_chain false []) "show" [] ["0"] ["2"] "1" (External "NotFound"));
    [reflexivity | discriminate | discriminate | reflexivity | | reflexivity].
  apply Forall_singleton. by eexists.
Defined.

Lemma get_attribute_no_children_witness :
  get_attribute sample_get_nested_attrs
    (λ st key ui n, sample_unavailable st key ui n [])
    sample_unavailable sample_select_from_attribute
    (empty_chain []) "show" ["ip"] = Ok (VList []).
Proof.
  exact (get_attribute_no_children sample_get_nested_attrs
           (λ st key ui n, sample_unavailable st key ui n [])
           sample_unavailable sample_select_from_attribute
           (empty_chain []) "show" ["ip"] eq_refl eq_refl).
Defined.

(** ** Validation and the handlers *)

Section HandlerProperties.

Context {Stack : Type}.
Variable get_class_to_instantiate : string → class_lookup.
Variable super_validate_nested_stack : ResourceChain Stack → result unit.
Variable create_with_template : Template → result value.
Variable update_with_template : Template → result value.

(** X13: a type name the environment does not know is no error for the
    chain: as long as no lookup raises anything but [EntityNotFound],
    known or unknown the types may be, the validation of the chain is the
    validation of its parent class. *)
Theorem validate_nested_stack_tolerates_unknown (self : ResourceChain Stack) :
  Forall (λ rt, ∀ e, get_class_to_instantiate rt ≠ LookupRaised e)
         (resources (properties self)) →
  validate_nested_stack get_class_to_instantiate super_validate_nested_stack self =
  super_validate_nested_stack self.
Proof.
  intros Hok. unfold validate_nested_stack.
  rewrite (mapM_Ok_fmap _ (λ _, tt)); [done|].
  eapply Forall_impl; [exact Hok|]. intros rt Hrt. simpl in Hrt.
  destruct (get_class_to_instantiate rt) as [| |e]; [done|done|].
  by destruct (Hrt e).
Qed.

(** X14: an exception other than [EntityNotFound] raised while looking a
    type up is not swallowed: the first one ends the validation, and the
    validation of the parent class is not reached. *)
Theorem validate_nested_stack_raises (self : ResourceChain Stack)
    (l1 l2 : list string) (rt : string) (e : exn) :
  resources (properties self) = l1 ++ rt :: l2 →
  Forall (λ rt', ∀ e', get_class_to_instantiate rt' ≠ LookupRaised e') l1 →
  get_class_to_instantiate rt = LookupRaised e →
  validate_nested_stack get_class_to_instantiate super_validate_nested_stack self =
  Raise e.
Proof.
  intros Hres Hbefore Hfail. unfold validate_nested_stack. rewrite Hres.
  rewrite (mapM_Raise _ l1 l2 rt e); [done| |by rewrite Hfail].
  eapply Forall_impl; [exact Hbefore|]. intros rt' Hrt'. simpl in Hrt'.
  destruct (get_class_to_instantiate rt') as [| |e']; [by eexists|by eexists|].
  by destruct (Hrt' e').
Qed.

Lemma child_specs_types (self : ResourceChain Stack) (resource_types : list string) :
  (λ nd, resource_type nd.2) <$> imap (child_spec self) resource_types =
  resource_types.
Proof.
  rewrite fmap_imap. rewrite (imap_ext _ (λ _ rt, rt)) by done.
  induction resource_types as [|rt l IH]; [done|].
  rewrite imap_cons. f_equal. exact IH.
Qed.

(** X15: the handlers never fail in the synthesis: creation hands the
    synthesized template to [create_with_template]; an update first
    replaces the properties of the chain by those of the snippet and
    hands over the template synthesized from them, whose children have
    the types of the snippet, whatever the properties before were. *)
Theorem handlers_pass_synthesized_template (self : ResourceChain Stack)
    (json_snippet_properties : Properties) :
  (∃ t, child_template self = Ok t ∧
        handle_create create_with_template self = create_with_template t) ∧
  ∃ t', (handle_update update_with_template self json_snippet_properties).2 =
          update_with_template t' ∧
        properties (handle_update update_with_template self json_snippet_properties).1 =
          json_snippet_properties ∧
        child_template (handle_update update_with_template self json_snippet_properties).1 =
          Ok t' ∧
        (λ nd, resource_type nd.2) <$> tmpl_resources t' =
          resources json_snippet_properties.
Proof.
  split.
  - eexists. split; [apply child_template_Ok|].
    unfold handle_create. by rewrite child_template_Ok.
  - eexists. split_and!; [|done|apply child_template_Ok|].
    + unfold handle_update. simpl. by rewrite child_template_Ok.
    + simpl. apply child_specs_types.
Qed.

End HandlerProperties.

Lemma validate_nested_stack_tolerates_unknown_witness :
  validate_nested_stack sample_get_class (λ _, Ok tt) (sample_chain false []) = Ok tt.
Proof.
  apply (validate_nested_stack_tolerates_unknown sample_get_class (λ _, Ok tt)
           (sample_chain false [])).
  repeat (apply Forall_cons_2; [intros e; vm_compute; discriminate|]).
  apply Forall_nil_2.
Defined.

Lemma validate_nested_stack_raises_witness :
  validate_nested_stack sample_get_class (λ _, Ok tt)
    {| name := "chain";
       properties := {| resources := ["unknown"; "broken"; "OS::Heat::RandomString"];
                        concurrent := false;
                        resource_properties := VNone |};
       nested := tt;
       referenced_attrs := [] |} = Raise (External "StackValidationFailed").
Proof.
  apply (validate_nested_stack_raises sample_get_class (λ _, Ok tt) _
           ["unknown"] ["OS::Heat::RandomString"] "broken"
           (External "StackValidationFailed"));
    [reflexivity | | reflexivity].
  apply Forall_cons_2; [intros e; vm_compute; discriminate | apply Forall_nil_2].
Defined.

(** ** Which references get no output, and what removing a type does *)

(** X16: a referenced attribute whose key has no ["resource."] prefix is
    left without output in exactly two cases: its key is [refs], or its
    key is [attributes] and no path comes with it. *)
Theorem nested_output_defns_reserved_only (resource_names : list string)
    (get_attr_fn : list string → value) (a : attr) :
  Py.startswith (attr_key a) "resource." = false →
  (_nested_output_defns_body resource_names get_attr_fn a = Ok [] ↔
   attr_key a = REFS ∨ (attr_key a = ATTR_ATTRIBUTES ∧ attr_path a = [])).
Proof.
  intros Hpre. rewrite nested_output_defns_body_Ok. unfold yields. rewrite Hpre.
  destruct (String.eqb (attr_key a) ATTR_ATTRIBUTES) eqn:Hattrs.
  - apply String.eqb_eq in Hattrs. rewrite Hattrs.
    destruct (attr_path a) as [|p path]; simpl.
    + split; [intros _; by right | done].
    + split; [done|]. by intros [?|[_ ?]].
  - apply String.eqb_neq in Hattrs. simpl.
    unfold Py.contains, ATTRIBUTES. case_bool_decide as Hin; simpl.
    + split; [intros _|done]. left.
      apply elem_of_cons in Hin as [?|Hin]; [done|].
      apply list_elem_of_singleton in Hin. by destruct Hattrs.
    + split; [done|]. intros [Hrefs|[? _]]; [|done].
      destruct Hin. rewrite Hrefs. by left.
Qed.

Lemma nested_output_defns_reserved_only_witness :
  _nested_output_defns_body ["0"; "1"] (VFunction "get_attr") (AttrStr "attributes")
    = Ok [] ↔
  "attributes" = REFS ∨ ("attributes" = ATTR_ATTRIBUTES ∧ @nil string = []).
Proof.
  exact (nested_output_defns_reserved_only ["0"; "1"] (VFunction "get_attr")
           (AttrStr "attributes") eq_refl).
Defined.

(** X17: keys follow positions, not types.  When the first declared type
    is removed, the chain keeps the keys of all children but the last;
    the child under each remaining key keeps its dependency and takes
    the type that the child after it had. *)
Theorem child_template_remove_first {Stack} (self self' : ResourceChain Stack)
    (rt : string) :
  resources (properties self) = rt :: resources (properties self') →
  concurrent (properties self') = concurrent (properties self) →
  ∃ t t', child_template self = Ok t ∧ child_template self' = Ok t' ∧
          length (tmpl_resources t) = S (length (tmpl_resources t')) ∧
          ∀ i key d',
            tmpl_resources t' !! i = Some (key, d') →
            ∃ d next_key next,
              tmpl_resources t !! i = Some (key, d) ∧
              depends d' = depends d ∧
              tmpl_resources t !! S i = Some (next_key, next) ∧
              resource_type d' = resource_type next.
Proof.
  intros Hres Hconc.
  eexists _, _. split; [apply child_template_Ok|].
  split; [apply child_template_Ok|]. simpl. rewrite Hres. split.
  - by rewrite !length_imap.
  - intros i key d' Hi.
    apply child_specs_lookup in Hi as (rt' & Hrt' & [= -> ->]).
    assert (is_Some ((rt :: resources (properties self')) !! i)) as [rti Hrti].
    { apply lookup_lt_is_Some. apply lookup_lt_Some in Hrt'. simpl. lia. }
    eexists _, _, _. rewrite !list_lookup_imap, Hrti. simpl. rewrite Hrt'. simpl.
    split; [reflexivity|]. split; [by rewrite Hconc|]. split; reflexivity.
Qed.

Lemma child_template_remove_first_witness :
  ∃ t t', child_template sample_chain_extended = Ok t ∧
          child_template
            {| name := "chain";
               properties := {| resources := ["OS::Heat::TestResource";
                                              "OS::Heat::RandomString";
                                              "OS::Nova::Server"];
                                concurrent := false;
                                resource_properties := VNone |};
               nested := tt;
               referenced_attrs := [] |} = Ok t' ∧
          length (tmpl_resources t) = S (length (tmpl_resources t')) ∧
          ∀ i key d',
            tmpl_resources t' !! i = Some (key, d') →
            ∃ d next_key next,
              tmpl_resources t !! i = Some (key, d) ∧
              depends d' = depends d ∧
              tmpl_resources t !! S i = Some (next_key, next) ∧
              resource_type d' = resource_type next.
Proof.
  exact (child_template_remove_first sample_chain_extended
           {| name := "chain";
              properties := {| resources := ["OS::Heat::TestResource";
                                             "OS::Heat::RandomString";
                                             "OS::Nova::Server"];
                               concurrent := false;
                               resource_properties := VNone |};
              nested := tt;
              referenced_attrs := [] |}
           "OS::Heat::RandomString" eq_refl eq_refl).
Defined.
